(** * ScheduledEvent: lifecycle status, confirmation view and deletion

    A shallow embedding of [src/lib/structures/ScheduledEvent.js].

    Conventions of the embedding:
    - JavaScript numbers that hold timestamps and durations are integers
      (milliseconds, or seconds for the constructor's UNIX time) and are
      modelled by [Z]. A Date holds a time value of at most 8.64e15 ms on
      either side of the epoch; a moment made from a number outside that
      range is invalid, and a difference that involves an invalid moment is
      NaN, modelled by [None]. Within the range the arithmetic of the class
      (one multiplication by 1000 inside [moment.unix], subtractions) is
      exact, and a result outside the range stays outside it after rounding.
    - A value that is [null] or [undefined] is the [None] of an [option]:
      [x == null] holds for both, and reading a property of either throws.
    - A promise is modelled by the way it settles ([settled]); an asynchronous
      store call is a function on the store state that also yields how its
      promise settles ([op]).
    - [config.js], [dbhandler/core.js] and [enums/ELobbyStatus] are required
      by the class but are not part of the sources at hand: the configuration
      is a record given as an argument, the database handler is a record of
      operations over an arbitrary store state, and the lobby status is an
      arbitrary type. *)

From Stdlib Require Import ZArith.
From stdpp Require Import base list sets strings.

(** ** Configuration ([require('../../config.js')]) *)

Record config := {
  default_timezone : string;
  happening_margin : Z
}.

(** ** The part of moment.js the class uses *)

Module moment.

(** The largest time value of a Date, in milliseconds from the epoch. *)
Definition max_time_value : Z := 8640000000000000.

Definition in_range (ms : Z) : bool := (Z.abs ms <=? max_time_value)%Z.

(** A moment: whether its date is valid, its instant (milliseconds since the
    epoch) and the zone name it was last given by [tz]. The time value of an
    invalid moment is NaN; [valueOf] is then not looked at. *)
Record t := {
  isValid : bool;
  valueOf : Z;
  tzName : option string
}.

(** [moment()]: the clock, read as [ms]; the current time is always a time
    value a Date can hold, so the moment is valid. *)
Definition now (ms : Z) : t :=
  {| isValid := true; valueOf := ms; tzName := None |}.

(** [moment(ms)]: the local moment of a millisecond timestamp, invalid when
    the timestamp is not a time value a Date can hold. *)
Definition of_ms (ms : Z) : t :=
  {| isValid := in_range ms; valueOf := ms; tzName := None |}.

(** [moment.unix(secs)] is [moment(secs * 1000)]. *)
Definition unix (secs : Z) : t := of_ms (secs * 1000).

(** [m.tz(name)]. With a name, moment-timezone looks the zone up, makes it
    the zone of [m] if it has data for it (see [zone]) and returns [m]; the
    instant does not change. With the
    empty string (the only string that is falsy) the call is the getter: it
    returns no moment but the name of the zone of [m], or undefined when [m]
    has no zone. [None] is the answer of the getter. *)
Definition tz (m : t) (name : string) : option t :=
  match name with
  | "" => None
  | _ => Some {| isValid := isValid m; valueOf := valueOf m; tzName := Some name |}
  end.


(** [this.diff(that)] without a unit: [this - that] in milliseconds, NaN as
    soon as one of the two is invalid. *)
Definition diff (this that : t) : option Z :=
  if isValid this && isValid that
  then Some (valueOf this - valueOf that)%Z
  else None.

(** [n > 0] for a number that may be NaN: false for NaN. *)
Definition gt0 (n : option Z) : bool :=
  match n with
  | Some n => (0 <? n)%Z
  | None => false
  end.

End moment.

(** ** Completions of synchronous code *)

Inductive JsError := TypeError (msg : string).

Inductive completion (A : Type) :=
| Return (v : A)
| Throw (e : JsError).
Arguments Return {A} v.
Arguments Throw {A} e.

(** ** Promises *)

Section Promise.
Context {Err : Type}.

(** How a promise settles; [Err] is the type of rejection reasons. *)
Inductive settled (A : Type) :=
| Fulfilled (value : A)
| Rejected (reason : Err).
Global Arguments Fulfilled {A} value.
Global Arguments Rejected {A} reason.

Definition is_fulfilled {A} (p : settled A) : bool :=
  match p with Fulfilled _ => true | Rejected _ => false end.

Definition is_rejected {A} (p : settled A) : bool :=
  match p with Fulfilled _ => false | Rejected _ => true end.

(** [new Promise((fulfill, reject) => ...)]: the executor is given the two
    resolving functions and the promise settles the way the executor uses
    them. *)
Definition new_Promise {A} (executor : (A -> settled A) -> (Err -> settled A) -> settled A)
  : settled A :=
  executor Fulfilled Rejected.

(** [p.then(onFulfilled, onRejected)] and [p.then(onFulfilled).catch(onRejected)]
    for handlers that do not throw: exactly one handler runs. *)
Definition then_catch {A R} (p : settled A) (onFulfilled : A -> R) (onRejected : Err -> R) : R :=
  match p with
  | Fulfilled v => onFulfilled v
  | Rejected e => onRejected e
  end.

(** Two operations are in flight at once; which one completes first is not
    decided by the class. *)
Inductive completion_order := FirstThenSecond | SecondThenFirst.

(** [Promise.all([p, q])]: fulfilled with both values when both promises are
    fulfilled, otherwise rejected with the reason of the promise that was
    rejected first. *)
Definition Promise_all {A B} (o : completion_order) (p : settled A) (q : settled B)
  : settled (A * B) :=
  match p, q with
  | Fulfilled a, Fulfilled b => Fulfilled (a, b)
  | Rejected e, Fulfilled _ => Rejected e
  | Fulfilled _, Rejected e => Rejected e
  | Rejected e1, Rejected e2 =>
      match o with
      | FirstThenSecond => Rejected e1
      | SecondThenFirst => Rejected e2
      end
  end.

(** *** Asynchronous store calls *)

Context {DB : Type}.

(** A store call acts on the store and settles its promise. *)
Definition op (A : Type) : Type := DB -> DB * settled A.

(** Two store calls issued one after the other without waiting: both run,
    whatever the outcome of the other one, and take effect in the order in
    which they complete. *)
Definition in_flight {A B} (o : completion_order) (p : op A) (q : op B)
  : DB -> DB * (settled A * settled B) :=
  fun s =>
    match o with
    | FirstThenSecond =>
        let '(s1, a) := p s in
        let '(s2, b) := q s1 in
        (s2, (a, b))
    | SecondThenFirst =>
        let '(s1, b) := q s in
        let '(s2, a) := p s1 in
        (s2, (a, b))
    end.

End Promise.
Arguments settled Err A : clear implicits.
Arguments op Err DB A : clear implicits.

(** ** The records the class exchanges with the store *)

(** A row of the confirms table, as far as [getConfirms] reads it. *)
Record Confirm := {
  user : string;
  attends : bool
}.

(** The [people] object of [getConfirms]. *)
Record people := {
  confirmed : list string;
  rejected : list string;
  waiting : list string
}.

(** The three lists of a view have no user in common, two by two. *)
Definition pairwise_disjoint (v : people) : Prop :=
  confirmed v ## rejected v /\ confirmed v ## waiting v /\ rejected v ## waiting v.

(** ** The class *)

Module ScheduledEvent.

Record t := {
  id : Z;
  name : string;
  time : option moment.t;
  limit : Z;
  instant : bool
}.

(** [constructor(id, name, time, limit, instant = false)]; an omitted
    [instant] is [None]. The moment of [moment.unix] has no zone, so when
    [cfg.default_timezone] is empty [tz] answers undefined and [time] is
    undefined. *)
Definition constructor (cfg : config) (id : Z) (name : string) (time : Z) (limit : Z)
    (instant : option bool) : t :=
  let instant := default false instant in
  {| id := id;
     name := name;
     time := if negb instant
             then moment.tz (moment.unix time) (default_timezone cfg)
             else None;
     limit := limit;
     instant := instant |}.

(** [getStatus()]. A method body runs with its receiver and hands it back as
    it leaves it (a body may assign to the properties of [this]), next to
    what the call returns. The clock is read once per comparison: [now1] is
    the value of the first [moment()], [now2] of the second. Calling [diff]
    on a [null] or [undefined] time is a TypeError (its message names which
    of the two and is left out). *)
Definition getStatus_body (cfg : config) (this : t) (now1 now2 : Z) : t * completion string :=
  if instant this then (this, Return "expired")
  else
    match time this with
    | None => (this, Throw (TypeError "Cannot read properties (reading 'diff')"))
    | Some time =>
        if moment.gt0 (moment.diff time (moment.now now1)) then (this, Return "pending")
        else if moment.gt0
                  (moment.diff time
                     (moment.of_ms (moment.valueOf (moment.now now2)
                                    - happening_margin cfg)%Z))
             then (this, Return "happening")
             else (this, Return "expired")
    end.

(** What a call of [getStatus] returns. *)
Definition getStatus (cfg : config) (this : t) (now1 now2 : Z) : completion string :=
  (getStatus_body cfg this now1 now2).2.

(** *** The database handler ([require('../modules/dbhandler/core.js')])

    Only the calls the class makes. [Err] is the type of rejection reasons,
    [DB] the state of the store, [Ack] what a write resolves with,
    [ELobbyStatus] and [Inhouse] what the store keeps about lobbies.
    [getByEvent] resolves with [null] or an array of rows, [getWaiting]
    with an array of user ids or no value. *)
Section Methods.
Context {Err DB Ack ELobbyStatus Inhouse : Type}.

Record dbhandler := {
  events_getSummaryMsgId : Z -> op Err DB string;
  events_updateSummaryMsgId : Z -> string -> op Err DB Ack;
  events_getLobbyStatus : t -> op Err DB ELobbyStatus;
  events_updateLobbyStatus : t -> ELobbyStatus -> op Err DB Ack;
  events_getWaiting : t -> op Err DB (option (list string));
  events_getInhouse : t -> op Err DB Inhouse;
  events_deleteEvent : Z -> op Err DB Ack;
  confirms_getByEvent : t -> op Err DB (option (list Confirm));
  confirms_deleteByEvent : Z -> op Err DB Ack
}.

Variable db : dbhandler.

(** [getMsgId()]. The body of a method that calls the store hands back its
    receiver, the store and the promise it returns; the definition without
    [_body] is the store and the promise alone. *)
Definition getMsgId_body (this : t) (s : DB) : t * (DB * settled Err string) :=
  let '(s', p) := events_getSummaryMsgId db (id this) s in
  (this, (s', new_Promise (fun fulfill reject =>
                then_catch p (fun id => fulfill id) (fun err => reject err)))).

Definition getMsgId (this : t) : op Err DB string :=
  fun s => (getMsgId_body this s).2.

(** [getLobbyStatus()] *)
Definition getLobbyStatus_body (this : t) (s : DB) : t * (DB * settled Err ELobbyStatus) :=
  (this, events_getLobbyStatus db this s).

Definition getLobbyStatus (this : t) : op Err DB ELobbyStatus :=
  fun s => (getLobbyStatus_body this s).2.

(** [updateMsgId(msgId)] *)
Definition updateMsgId_body (this : t) (msgId : string) (s : DB)
  : t * (DB * settled Err unit) :=
  let '(s', p) := events_updateSummaryMsgId db (id this) msgId s in
  (this, (s', new_Promise (fun fulfill reject =>
                then_catch p (fun _ => fulfill tt) (fun err => reject err)))).

Definition updateMsgId (this : t) (msgId : string) : op Err DB unit :=
  fun s => (updateMsgId_body this msgId s).2.

(** [setLobbyStatus(status)] *)
Definition setLobbyStatus_body (this : t) (status : ELobbyStatus) (s : DB)
  : t * (DB * settled Err Ack) :=
  let '(s', p) := events_updateLobbyStatus db this status s in
  (this, (s', new_Promise (fun fulfill reject => then_catch p fulfill reject))).

Definition setLobbyStatus (this : t) (status : ELobbyStatus) : op Err DB Ack :=
  fun s => (setLobbyStatus_body this status s).2.

(** The loop of [getConfirms]:
    [for (var i = 0; i < confirms.length; i++)], with [confirmed] and
    [rejected] as the two arrays being pushed to. [confirms !! i] is
    [None] exactly when [i < confirms.length] fails. The caller gives
    [confirms.length] as [fuel]. *)
Fixpoint for_confirms (fuel i : nat) (confirms : list Confirm)
    (confirmed rejected : list string) : list string * list string :=
  match fuel with
  | O => (confirmed, rejected)
  | S fuel =>
      match confirms !! i with
      | None => (confirmed, rejected)
      | Some c =>
          if attends c
          then for_confirms fuel (S i) confirms (confirmed ++ [user c]) rejected
          else for_confirms fuel (S i) confirms confirmed (rejected ++ [user c])
      end
  end.

(** The handler given to [then] in [getConfirms], up to the call of
    [fulfill]. *)
Definition getConfirms_view (vals : option (list Confirm) * option (list string)) : people :=
  let confirms := vals.1 in
  let waiting := vals.2 in
  let '(confirmed, rejected) :=
    match confirms with
    | Some confirms => for_confirms (length confirms) 0 confirms [] []
    | None => ([], [])
    end in
  {| confirmed := confirmed; rejected := rejected; waiting := default [] waiting |}.

(** [getConfirms()] *)
Definition getConfirms_body (o : completion_order) (this : t) (s : DB)
  : t * (DB * settled Err people) :=
  let '(s', (getConfirmsPromise, getWaitingPromise)) :=
    in_flight o (confirms_getByEvent db this) (events_getWaiting db this) s in
  (this, (s', new_Promise (fun fulfill reject =>
                then_catch (Promise_all o getConfirmsPromise getWaitingPromise)
                  (fun vals => fulfill (getConfirms_view vals))
                  reject))).

Definition getConfirms (o : completion_order) (this : t) : op Err DB people :=
  fun s => (getConfirms_body o this s).2.

(** [getInhouseProperties()] *)
Definition getInhouseProperties_body (this : t) (s : DB) : t * (DB * settled Err Inhouse) :=
  (this, events_getInhouse db this s).

Definition getInhouseProperties (this : t) : op Err DB Inhouse :=
  fun s => (getInhouseProperties_body this s).2.

(** [deleteEvent()] *)
Definition deleteEvent_body (o : completion_order) (this : t) (s : DB)
  : t * (DB * settled Err (Ack * Ack)) :=
  let '(s', (deleteEventPromise, deleteConfirmsPromise)) :=
    in_flight o (events_deleteEvent db (id this)) (confirms_deleteByEvent db (id this)) s in
  (this, (s', new_Promise (fun fulfill reject =>
                then_catch (Promise_all o deleteEventPromise deleteConfirmsPromise)
                  fulfill reject))).

Definition deleteEvent (o : completion_order) (this : t) : op Err DB (Ack * Ack) :=
  fun s => (deleteEvent_body o this s).2.

(** *** The object across calls

    A call of a method, and the receiver and the store once it has run: the
    receiver is the one the body hands back. The store calls are functions
    of the event they are given. *)
Inductive call :=
| GetMsgId
| GetStatus (cfg : config) (now1 now2 : Z)
| GetLobbyStatus
| UpdateMsgId (msgId : string)
| SetLobbyStatus (status : ELobbyStatus)
| GetConfirms (o : completion_order)
| GetInhouseProperties
| DeleteEvent (o : completion_order).

Definition invoke (c : call) (obj : t * DB) : t * DB :=
  let '(this, s) := obj in
  match c with
  | GetMsgId => let '(this', (s', _)) := getMsgId_body this s in (this', s')
  | GetStatus cfg now1 now2 => ((getStatus_body cfg this now1 now2).1, s)
  | GetLobbyStatus => let '(this', (s', _)) := getLobbyStatus_body this s in (this', s')
  | UpdateMsgId msgId => let '(this', (s', _)) := updateMsgId_body this msgId s in (this', s')
  | SetLobbyStatus status =>
      let '(this', (s', _)) := setLobbyStatus_body this status s in (this', s')
  | GetConfirms o => let '(this', (s', _)) := getConfirms_body o this s in (this', s')
  | GetInhouseProperties =>
      let '(this', (s', _)) := getInhouseProperties_body this s in (this', s')
  | DeleteEvent o => let '(this', (s', _)) := deleteEvent_body o this s in (this', s')
  end.

Definition run (calls : list call) (obj : t * DB) : t * DB :=
  foldl (fun obj c => invoke c obj) obj calls.

End Methods.
Arguments dbhandler Err DB Ack ELobbyStatus Inhouse : clear implicits.

End ScheduledEvent.

(** ** An in-memory store

    A handler over tables kept in lists, to run the class on concrete
    inputs. Either table can be taken offline, and a call that needs an
    offline table is rejected without touching the store. *)

Module memdb.

Record state := {
  events : list Z;
  confirms : list (Z * Confirm);
  waitingLists : list (Z * list string);
  eventsOnline : bool;
  confirmsOnline : bool
}.

Definition guarded {A} (online : state -> bool) (reason : string)
    (run : state -> state * A) : op string state A :=
  fun s =>
    if online s
    then let '(s', a) := run s in (s', Fulfilled a)
    else (s, Rejected reason).

Definition on_events {A} := @guarded A eventsOnline "events table offline".
Definition on_confirms {A} := @guarded A confirmsOnline "confirms table offline".

Definition rows_of (event : Z) (s : state) : option (list Confirm) :=
  match filter (fun row => row.1 = event) (confirms s) with
  | [] => None
  | rows => Some (snd <$> rows)
  end.

Definition waiting_of (event : Z) (s : state) : option (list string) :=
  match list_find (fun row => row.1 = event) (waitingLists s) with
  | Some (_, row) => Some row.2
  | None => None
  end.

Definition without_event (event : Z) (s : state) : state :=
  {| events := filter (fun e => e ≠ event) (events s);
     confirms := confirms s;
     waitingLists := filter (fun row => row.1 ≠ event) (waitingLists s);
     eventsOnline := eventsOnline s;
     confirmsOnline := confirmsOnline s |}.

Definition without_confirms (event : Z) (s : state) : state :=
  {| events := events s;
     confirms := filter (fun row => row.1 ≠ event) (confirms s);
     waitingLists := waitingLists s;
     eventsOnline := eventsOnline s;
     confirmsOnline := confirmsOnline s |}.

Definition handler : ScheduledEvent.dbhandler string state unit unit unit := {|
  ScheduledEvent.events_getSummaryMsgId := fun _ => on_events (fun s => (s, ""));
  ScheduledEvent.events_updateSummaryMsgId := fun _ _ => on_events (fun s => (s, tt));
  ScheduledEvent.events_getLobbyStatus := fun _ => on_events (fun s => (s, tt));
  ScheduledEvent.events_updateLobbyStatus := fun _ _ => on_events (fun s => (s, tt));
  ScheduledEvent.events_getWaiting :=
    fun ev => on_events (fun s => (s, waiting_of (ScheduledEvent.id ev) s));
  ScheduledEvent.events_getInhouse := fun _ => on_events (fun s => (s, tt));
  ScheduledEvent.events_deleteEvent :=
    fun event => on_events (fun s => (without_event event s, tt));
  ScheduledEvent.confirms_getByEvent :=
    fun ev => on_confirms (fun s => (s, rows_of (ScheduledEvent.id ev) s));
  ScheduledEvent.confirms_deleteByEvent :=
    fun event => on_confirms (fun s => (without_confirms event s, tt))
|}.

Definition cfg : config :=
  {| default_timezone := "Europe/Lisbon"; happening_margin := 600000 |}.

(** Event 4 has one confirm of each kind and one user still waiting; event 5
    has a user who confirmed and is still on the waiting list; event 9 has no
    rows at all. *)
Definition event4 : ScheduledEvent.t :=
  ScheduledEvent.constructor cfg 4 "inhouse" 1500000000 10 None.

Definition event5 : ScheduledEvent.t :=
  ScheduledEvent.constructor cfg 5 "scrim" 1500003600 10 (Some false).

Definition event9 : ScheduledEvent.t :=
  ScheduledEvent.constructor cfg 9 "pickup" 1500007200 0 (Some true).

Definition store (eventsUp confirmsUp : bool) : state :=
  {| events := [3; 4; 5; 9]%Z;
     confirms := [(4, {| user := "ana"; attends := true |});
                  (3, {| user := "bea"; attends := true |});
                  (4, {| user := "caio"; attends := false |});
                  (5, {| user := "eva"; attends := true |})]%Z;
     waitingLists := [(4, ["duda"]); (5, ["eva"; "fabio"])]%Z;
     eventsOnline := eventsUp;
     confirmsOnline := confirmsUp |}.

(** Event 6 in a store of its own: five rows, with two users answering twice. *)
Definition event6 : ScheduledEvent.t :=
  ScheduledEvent.constructor cfg 6 "league" 1500010800 8 (Some false).

Definition rows6 : list Confirm :=
  [{| user := "ana"; attends := true |}; {| user := "bea"; attends := false |};
   {| user := "ana"; attends := true |}; {| user := "caio"; attends := true |};
   {| user := "bea"; attends := false |}].

Definition crowded : state :=
  {| events := [6]%Z;
     confirms := (fun row => (6%Z, row)) <$> rows6;
     waitingLists := [(6, ["duda"])]%Z;
     eventsOnline := true;
     confirmsOnline := true |}.

(** The rows the store holds for events 4 and 5. *)
Definition rows4 : list Confirm :=
  [{| user := "ana"; attends := true |}; {| user := "caio"; attends := false |}].

Definition rows5 : list Confirm :=
  [{| user := "eva"; attends := true |}].

End memdb.

(** ** A store of summary messages

    A second handler, which keeps the summary message id of each event: an
    update puts the new id in front, a read takes the first id found and is
    rejected for an event without one. The other calls do nothing. *)

Module msgdb.

Definition state := list (Z * string).

Definition getSummaryMsgId (event : Z) : op string state string :=
  fun s =>
    match list_find (fun row => row.1 = event) s with
    | Some (_, row) => (s, Fulfilled row.2)
    | None => (s, Rejected "no summary message")
    end.

Definition updateSummaryMsgId (event : Z) (msgId : string) : op string state nat :=
  fun s => ((event, msgId) :: s, Fulfilled 1%nat).

Definition handler : ScheduledEvent.dbhandler string state nat unit unit := {|
  ScheduledEvent.events_getSummaryMsgId := getSummaryMsgId;
  ScheduledEvent.events_updateSummaryMsgId := updateSummaryMsgId;
  ScheduledEvent.events_getLobbyStatus := fun _ s => (s, Fulfilled tt);
  ScheduledEvent.events_updateLobbyStatus := fun _ _ s => (s, Fulfilled 1%nat);
  ScheduledEvent.events_getWaiting := fun _ s => (s, Fulfilled None);
  ScheduledEvent.events_getInhouse := fun _ s => (s, Fulfilled tt);
  ScheduledEvent.events_deleteEvent :=
    fun event s => (filter (fun row => row.1 ≠ event) s, Fulfilled 1%nat);
  ScheduledEvent.confirms_getByEvent := fun _ s => (s, Fulfilled None);
  ScheduledEvent.confirms_deleteByEvent := fun _ s => (s, Fulfilled 0%nat)
|}.

End msgdb.

(** * Properties *)

(** ** Lifecycle status *)

Section Status.
Variable cfg : config.

(** What [getStatus] computes for an event that is not instant, in terms of
    the instants alone. *)
Lemma getStatus_scheduled (this : ScheduledEvent.t) (tm : moment.t) (now1 now2 : Z) :
  ScheduledEvent.instant this = false ->
  ScheduledEvent.time this = Some tm ->
  ScheduledEvent.getStatus cfg this now1 now2 =
    if moment.isValid tm && (now1 <? moment.valueOf tm)%Z then Return "pending"
    else if moment.isValid tm && moment.in_range (now2 - happening_margin cfg)
            && (now2 - happening_margin cfg <? moment.valueOf tm)%Z
         then Return "happening"
         else Return "expired".
Proof.
  intros Hinst Htime. unfold ScheduledEvent.getStatus, ScheduledEvent.getStatus_body.
  rewrite Hinst, Htime. unfold moment.diff, moment.gt0.
  cbn [moment.valueOf moment.isValid moment.now moment.of_ms].
  destruct (moment.isValid tm); cbn [andb]; [|reflexivity].
  destruct (Z.ltb_spec 0 (moment.valueOf tm - now1)) as [H1|H1];
    destruct (Z.ltb_spec now1 (moment.valueOf tm)) as [H1'|H1']; try lia; try reflexivity.
  destruct (moment.in_range (now2 - happening_margin cfg)); cbn [andb]; [|reflexivity].
  destruct (Z.ltb_spec 0 (moment.valueOf tm - (now2 - happening_margin cfg))) as [H2|H2];
    destruct (Z.ltb_spec (now2 - happening_margin cfg) (moment.valueOf tm)) as [H2'|H2'];
    try lia; reflexivity.
Qed.

(** Strictly inside the window the status is "happening", provided the
    event's time is a valid date and so is the clock less the margin. *)
Lemma getStatus_happening_before_margin_end (this : ScheduledEvent.t) (tm : moment.t)
    (now1 now2 : Z) :
  ScheduledEvent.instant this = false ->
  ScheduledEvent.time this = Some tm ->
  moment.isValid tm = true ->
  moment.in_range (now2 - happening_margin cfg) = true ->
  (moment.valueOf tm <= now1)%Z ->
  (now2 < moment.valueOf tm + happening_margin cfg)%Z ->
  ScheduledEvent.getStatus cfg this now1 now2 = Return "happening".
Proof.
  intros Hinst Htime Hv Hr H1 H2. rewrite (getStatus_scheduled this tm) by assumption.
  rewrite Hv, Hr. cbn [andb].
  destruct (Z.ltb_spec now1 (moment.valueOf tm)); [lia|].
  destruct (Z.ltb_spec (now2 - happening_margin cfg) (moment.valueOf tm)); [reflexivity|lia].
Qed.

(** C1. At the last instant of the window, [now = scheduledTime + margin],
    [getStatus] of a scheduled (not instant) event answers "expired", not
    "happening": the comparison against the end of the window is strict. *)
Theorem getStatus_at_margin_end_is_expired (this : ScheduledEvent.t) (tm : moment.t) :
  ScheduledEvent.instant this = false ->
  ScheduledEvent.time this = Some tm ->
  (0 <= happening_margin cfg)%Z ->
  let now := (moment.valueOf tm + happening_margin cfg)%Z in
  (moment.valueOf tm <= now)%Z /\ (now <= moment.valueOf tm + happening_margin cfg)%Z /\
  ScheduledEvent.getStatus cfg this now now = Return "expired".
Proof.
  intros Hinst Htime Hm now. subst now. split; [lia|]. split; [lia|].
  rewrite (getStatus_scheduled this tm) by assumption.
  destruct (Z.ltb_spec (moment.valueOf tm + happening_margin cfg) (moment.valueOf tm)); [lia|].
  rewrite andb_false_r.
  destruct (Z.ltb_spec (moment.valueOf tm + happening_margin cfg - happening_margin cfg)
              (moment.valueOf tm)); [lia|].
  rewrite andb_false_r. reflexivity.
Qed.

(** C4. An instant event is "expired" at every time and for every margin. *)
Theorem getStatus_instant_is_expired (this : ScheduledEvent.t) (now1 now2 : Z) :
  ScheduledEvent.instant this = true ->
  ScheduledEvent.getStatus cfg this now1 now2 = Return "expired".
Proof.
  intros Hinst. unfold ScheduledEvent.getStatus, ScheduledEvent.getStatus_body.
  rewrite Hinst. reflexivity.
Qed.

End Status.

(** The event of [memdb] starts at 1500000000 s with a margin of 600000 ms:
    at 1500000600000 ms, the end of its window, it is already expired. *)
Lemma getStatus_at_margin_end_is_expired_witness :
  let now := 1500000600000%Z in
  (1500000000000 <= now)%Z /\ (now <= 1500000000000 + 600000)%Z /\
  ScheduledEvent.getStatus memdb.cfg memdb.event4 now now = Return "expired".
Proof.
  apply (getStatus_at_margin_end_is_expired memdb.cfg memdb.event4
           {| moment.isValid := true; moment.valueOf := 1500000000000;
              moment.tzName := Some "Europe/Lisbon" |});
    [reflexivity | reflexivity | vm_compute; discriminate].
Defined.

Lemma getStatus_instant_is_expired_witness :
  ScheduledEvent.getStatus memdb.cfg
    (ScheduledEvent.constructor memdb.cfg 7 "now" 1500000000 5 (Some true)) 0 99 =
  Return "expired".
Proof.
  apply (getStatus_instant_is_expired memdb.cfg
           (ScheduledEvent.constructor memdb.cfg 7 "now" 1500000000 5 (Some true)) 0 99).
  reflexivity.
Defined.

(** ** The constructor and the fields [time] and [instant] *)

Section Object.
Context {Err DB Ack ELobbyStatus Inhouse : Type}.
Variable db : ScheduledEvent.dbhandler Err DB Ack ELobbyStatus Inhouse.






End Object.

(** ** The confirmation view *)

Section Confirms.

(** The loop visits the rows from index [i] on, in order, and appends each
    user to one of the two arrays. *)
Lemma for_confirms_from (fuel i : nat) (confirms : list Confirm)
    (confirmed rejected : list string) :
  length confirms <= i + fuel ->
  ScheduledEvent.for_confirms fuel i confirms confirmed rejected =
    (confirmed ++ (user <$> filter (fun c => attends c = true) (drop i confirms)),
     rejected ++ (user <$> filter (fun c => attends c = false) (drop i confirms))).
Proof.
  revert i confirmed rejected.
  induction fuel as [|fuel IH]; intros i confirmed rejected Hlen; cbn [ScheduledEvent.for_confirms].
  - rewrite drop_ge by lia. cbn. by rewrite !app_nil_r.
  - destruct (confirms !! i) as [c|] eqn:Hi.
    + rewrite (drop_S _ _ _ Hi). rewrite !filter_cons.
      destruct (attends c) eqn:Hc; rewrite IH by lia.
      * rewrite decide_True by reflexivity. rewrite decide_False by discriminate.
        cbn. by rewrite <- app_assoc.
      * rewrite decide_False by discriminate. rewrite decide_True by reflexivity.
        cbn. by rewrite <- app_assoc.
    + apply lookup_ge_None in Hi. rewrite drop_ge by lia. cbn. by rewrite !app_nil_r.
Qed.

(** The view in closed form: [null] rows count as no rows, a missing waiting
    list as an empty one. *)
Lemma getConfirms_view_eq (confirms : option (list Confirm)) (waiting : option (list string)) :
  ScheduledEvent.getConfirms_view (confirms, waiting) =
    {| confirmed := user <$> filter (fun c => attends c = true) (default [] confirms);
       rejected := user <$> filter (fun c => attends c = false) (default [] confirms);
       waiting := default [] waiting |}.
Proof.
  unfold ScheduledEvent.getConfirms_view. cbn [fst snd].
  destruct confirms as [rows|]; [|reflexivity].
  rewrite for_confirms_from by lia. reflexivity.
Qed.

End Confirms.

Section GetConfirms.
Context {Err DB Ack ELobbyStatus Inhouse : Type}.
Variable db : ScheduledEvent.dbhandler Err DB Ack ELobbyStatus Inhouse.

(** The two reads of [getConfirms], in flight together. *)
Local Abbreviation reads o this :=
  (in_flight o (ScheduledEvent.confirms_getByEvent db this)
               (ScheduledEvent.events_getWaiting db this)).

(** [getConfirms] settles the way [Promise.all] of its two reads does, with
    the view in place of the pair of values. *)
Lemma getConfirms_settles (o : completion_order) (this : ScheduledEvent.t) (s s' : DB)
    (rc : settled Err (option (list Confirm))) (rw : settled Err (option (list string))) :
  reads o this s = (s', (rc, rw)) ->
  ScheduledEvent.getConfirms db o this s =
    (s', match Promise_all o rc rw with
         | Fulfilled vals => Fulfilled (ScheduledEvent.getConfirms_view vals)
         | Rejected e => Rejected e
         end).
Proof.
  unfold ScheduledEvent.getConfirms, ScheduledEvent.getConfirms_body. intros ->.
  unfold new_Promise, then_catch. reflexivity.
Qed.

Lemma getConfirms_fulfilled (o : completion_order) (this : ScheduledEvent.t) (s s' : DB)
    (c : option (list Confirm)) (w : option (list string)) :
  reads o this s = (s', (Fulfilled c, Fulfilled w)) ->
  ScheduledEvent.getConfirms db o this s =
    (s', Fulfilled (ScheduledEvent.getConfirms_view (c, w))).
Proof. intros H. rewrite (getConfirms_settles _ _ _ _ _ _ H). reflexivity. Qed.

(** C5. When both reads succeed, [confirmed] holds exactly the users of the
    rows with [attends] true and [rejected] exactly the users of the rows with
    [attends] false; with [null] or no rows both are empty and the call still
    succeeds. *)
Theorem getConfirms_partitions_by_attends (o : completion_order) (this : ScheduledEvent.t)
    (s s' : DB) (c : option (list Confirm)) (w : option (list string)) :
  reads o this s = (s', (Fulfilled c, Fulfilled w)) ->
  exists v, ScheduledEvent.getConfirms db o this s = (s', Fulfilled v) /\
    (forall u, u ∈ confirmed v <->
               exists r, r ∈ default [] c /\ attends r = true /\ user r = u) /\
    (forall u, u ∈ rejected v <->
               exists r, r ∈ default [] c /\ attends r = false /\ user r = u) /\
    (c = None \/ c = Some [] -> confirmed v = [] /\ rejected v = []).
Proof.
  intros H. eexists. split; [apply (getConfirms_fulfilled _ _ _ _ _ _ H)|].
  rewrite getConfirms_view_eq. cbn [confirmed rejected].
  split; [|split].
  - intros u. rewrite list_elem_of_fmap. split.
    + intros (r & -> & Hr). apply list_elem_of_filter in Hr as [Ha Hr]. eauto.
    + intros (r & Hr & Ha & <-). exists r. split; [reflexivity|].
      apply list_elem_of_filter. auto.
  - intros u. rewrite list_elem_of_fmap. split.
    + intros (r & -> & Hr). apply list_elem_of_filter in Hr as [Ha Hr]. eauto.
    + intros (r & Hr & Ha & <-). exists r. split; [reflexivity|].
      apply list_elem_of_filter. auto.
  - intros [-> | ->]; cbn; auto.
Qed.

(** C10. Each of [confirmed] and [rejected] is the list of users of the
    matching rows in the order of the rows, one entry per row: of two rows
    with the same [attends], the user of the earlier one comes first, and
    nothing is dropped or merged. *)
Theorem getConfirms_keeps_row_order (o : completion_order) (this : ScheduledEvent.t)
    (s s' : DB) (c : option (list Confirm)) (w : option (list string)) :
  reads o this s = (s', (Fulfilled c, Fulfilled w)) ->
  exists v, ScheduledEvent.getConfirms db o this s = (s', Fulfilled v) /\
    confirmed v = user <$> filter (fun r => attends r = true) (default [] c) /\
    rejected v = user <$> filter (fun r => attends r = false) (default [] c) /\
    (length (confirmed v) + length (rejected v) = length (default [] c))%nat /\
    (forall l1 r1 l2 r2 l3,
       default [] c = l1 ++ r1 :: l2 ++ r2 :: l3 ->
       attends r1 = attends r2 ->
       exists a b d,
         (if attends r1 then confirmed v else rejected v) =
           a ++ user r1 :: b ++ user r2 :: d /\
         length a = length (filter (fun r => attends r = attends r1) l1) /\
         length b = length (filter (fun r => attends r = attends r1) l2) /\
         length d = length (filter (fun r => attends r = attends r1) l3)).
Proof.
  intros H. eexists. split; [apply (getConfirms_fulfilled _ _ _ _ _ _ H)|].
  rewrite getConfirms_view_eq. cbn [confirmed rejected].
  split; [reflexivity|]. split; [reflexivity|]. split.
  - rewrite !length_fmap. generalize (default [] c). intros l.
    induction l as [|r l IH]; [reflexivity|].
    rewrite !filter_cons. destruct (attends r).
    + rewrite decide_True by reflexivity. rewrite decide_False by discriminate.
      cbn. lia.
    + rewrite decide_False by discriminate. rewrite decide_True by reflexivity.
      cbn. lia.
  - intros l1 r1 l2 r2 l3 -> Hsame.
    exists (user <$> filter (fun r => attends r = attends r1) l1),
           (user <$> filter (fun r => attends r = attends r1) l2),
           (user <$> filter (fun r => attends r = attends r1) l3).
    rewrite !length_fmap. split; [|auto].
    destruct (attends r1) eqn:H1;
      rewrite filter_app, filter_cons, filter_app, filter_cons;
      rewrite <- Hsame, H1;
      rewrite !decide_True by reflexivity;
      rewrite fmap_app, fmap_cons, fmap_app, fmap_cons; reflexivity.
Qed.

(** C9. A waiting list delivered by the store is returned as it is, whatever
    the rows say: users who also have a row stay on it. *)
Theorem getConfirms_waiting_passes_through (o : completion_order) (this : ScheduledEvent.t)
    (s s' : DB) (c : option (list Confirm)) (w : list string) :
  reads o this s = (s', (Fulfilled c, Fulfilled (Some w))) ->
  exists v, ScheduledEvent.getConfirms db o this s = (s', Fulfilled v) /\
    waiting v = w /\
    (forall r, r ∈ default [] c -> user r ∈ w -> user r ∈ waiting v).
Proof.
  intros H. eexists. split; [apply (getConfirms_fulfilled _ _ _ _ _ _ H)|].
  rewrite getConfirms_view_eq. cbn [waiting default]. auto.
Qed.

(** C7. Without a waiting-list value [waiting] is empty, and if there are no
    rows either ([null] or an empty array) the call succeeds with three empty
    lists. *)
Theorem getConfirms_defaults_to_empty (o : completion_order) (this : ScheduledEvent.t)
    (s s' : DB) (c : option (list Confirm)) :
  reads o this s = (s', (Fulfilled c, Fulfilled None)) ->
  exists v, ScheduledEvent.getConfirms db o this s = (s', Fulfilled v) /\
    waiting v = [] /\
    (c = None \/ c = Some [] ->
     v = {| confirmed := []; rejected := []; waiting := [] |}).
Proof.
  intros H. eexists. split; [apply (getConfirms_fulfilled _ _ _ _ _ _ H)|].
  rewrite getConfirms_view_eq. cbn [waiting default].
  split; [reflexivity|]. intros [-> | ->]; reflexivity.
Qed.

(** C6. [getConfirms] rejects exactly when one of its two reads is rejected;
    the reason is that of the read that was rejected first; and a view is
    delivered only when both reads were fulfilled, built from both values. *)
Theorem getConfirms_rejects_iff_a_read_fails (o : completion_order) (this : ScheduledEvent.t)
    (s s' : DB) (rc : settled Err (option (list Confirm)))
    (rw : settled Err (option (list string))) :
  reads o this s = (s', (rc, rw)) ->
  exists res, ScheduledEvent.getConfirms db o this s = (s', res) /\
    (is_rejected res = true <-> is_rejected rc = true \/ is_rejected rw = true) /\
    (forall e, res = Rejected e <->
       match o with
       | FirstThenSecond =>
           rc = Rejected e \/ (is_fulfilled rc = true /\ rw = Rejected e)
       | SecondThenFirst =>
           rw = Rejected e \/ (is_fulfilled rw = true /\ rc = Rejected e)
       end) /\
    (forall v, res = Fulfilled v <->
       exists c w, rc = Fulfilled c /\ rw = Fulfilled w /\
                   v = ScheduledEvent.getConfirms_view (c, w)).
Proof.
  intros H. eexists. split; [apply (getConfirms_settles _ _ _ _ _ _ H)|].
  destruct rc as [c|ec], rw as [w|ew], o; cbn; (split; [|split]).
  all: try (intros x; split).
  all: try (intros (c' & w' & ? & ? & ->)).
  all: try solve [intuition congruence].
  all: intros [= <-]; eauto.
Qed.

(** C3 (amended). The three lists of the view are pairwise disjoint exactly
    when the store results are: no user has both a row with [attends] true and
    a row with [attends] false, and no user on the waiting list has a row. *)
Theorem getConfirms_disjoint_iff_store_disjoint (o : completion_order)
    (this : ScheduledEvent.t) (s s' : DB) (c : option (list Confirm))
    (w : option (list string)) :
  reads o this s = (s', (Fulfilled c, Fulfilled w)) ->
  exists v, ScheduledEvent.getConfirms db o this s = (s', Fulfilled v) /\
    (pairwise_disjoint v <->
       (forall r1 r2, r1 ∈ default [] c -> r2 ∈ default [] c ->
                      user r1 = user r2 -> attends r1 = attends r2) /\
       (forall r, r ∈ default [] c -> user r ∉ default [] w)).
Proof.
  intros H. eexists. split; [apply (getConfirms_fulfilled _ _ _ _ _ _ H)|].
  rewrite getConfirms_view_eq. unfold pairwise_disjoint. cbn [confirmed rejected waiting].
  generalize (default [] c) (default [] w). clear. intros rows wl.
  assert (Hin : forall b u, u ∈ user <$> filter (fun r => attends r = b) rows <->
                            exists r, r ∈ rows /\ attends r = b /\ user r = u).
  { intros b u. rewrite list_elem_of_fmap. split.
    - intros (r & -> & Hr). apply list_elem_of_filter in Hr as [Ha Hr]. eauto.
    - intros (r & Hr & Ha & <-). exists r. split; [reflexivity|].
      apply list_elem_of_filter. auto. }
  split.
  - intros (Hcr & Hcw & Hrw). split.
    + intros r1 r2 H1 H2 Hu.
      destruct (attends r1) eqn:A1, (attends r2) eqn:A2; try reflexivity; exfalso.
      * apply (Hcr (user r1)); apply Hin; [exists r1 | exists r2]; auto.
      * apply (Hcr (user r1)); apply Hin; [exists r2 | exists r1]; auto.
    + intros r Hr Hw. destruct (attends r) eqn:A.
      * apply (Hcw (user r)); [apply Hin; exists r; auto | exact Hw].
      * apply (Hrw (user r)); [apply Hin; exists r; auto | exact Hw].
  - intros [Hrows Hwl]. split; [|split].
    + intros u Hc Hr. apply Hin in Hc as (r1 & H1 & A1 & U1).
      apply Hin in Hr as (r2 & H2 & A2 & U2).
      specialize (Hrows r1 r2 H1 H2). rewrite A1, A2 in Hrows.
      discriminate Hrows. congruence.
    + intros u Hc Hw. apply Hin in Hc as (r & Hr & _ & <-). exact (Hwl r Hr Hw).
    + intros u Hc Hw. apply Hin in Hc as (r & Hr & _ & <-). exact (Hwl r Hr Hw).
Qed.

End GetConfirms.

(** ** Deletion *)

Section Deletion.
Context {Err DB Ack ELobbyStatus Inhouse : Type}.
Variable db : ScheduledEvent.dbhandler Err DB Ack ELobbyStatus Inhouse.

(** C2. [deleteEvent] issues both deletions, each whatever the outcome of the
    other. It is fulfilled when both are and rejected as soon as one is, and
    the store it leaves is the store after both deletions took effect: what a
    successful deletion changed stays changed when the other one fails. *)
Theorem deleteEvent_no_rollback (o : completion_order) (this : ScheduledEvent.t)
    (s s1 s2 : DB) (re rc : settled Err Ack) :
  match o with
  | FirstThenSecond =>
      ScheduledEvent.events_deleteEvent db (ScheduledEvent.id this) s = (s1, re) /\
      ScheduledEvent.confirms_deleteByEvent db (ScheduledEvent.id this) s1 = (s2, rc)
  | SecondThenFirst =>
      ScheduledEvent.confirms_deleteByEvent db (ScheduledEvent.id this) s = (s1, rc) /\
      ScheduledEvent.events_deleteEvent db (ScheduledEvent.id this) s1 = (s2, re)
  end ->
  exists res, ScheduledEvent.deleteEvent db o this s = (s2, res) /\
    (is_fulfilled res = true <-> is_fulfilled re = true /\ is_fulfilled rc = true) /\
    (is_rejected res = true <-> is_rejected re = true \/ is_rejected rc = true) /\
    (forall a e, re = Fulfilled a -> rc = Rejected e -> res = Rejected e) /\
    (forall a e, re = Rejected e -> rc = Fulfilled a -> res = Rejected e).
Proof.
  intros H. unfold ScheduledEvent.deleteEvent, ScheduledEvent.deleteEvent_body, in_flight.
  destruct o; destruct H as [-> ->]; eexists; (split; [reflexivity|]);
    unfold new_Promise, then_catch;
    destruct re as [a|e1], rc as [b|e2]; cbn;
    repeat split; intros; try discriminate; try congruence; auto;
    try (destruct H; discriminate).
Qed.

End Deletion.

(** ** The class on the in-memory store *)

(** C3 (as stated) fails: for event 5 the store delivers "eva" both in a row
    and on the waiting list, and the view has her in [confirmed] and in
    [waiting]. *)
Lemma getConfirms_view_not_disjoint :
  exists v,
    ScheduledEvent.getConfirms memdb.handler FirstThenSecond memdb.event5 (memdb.store true true)
      = (memdb.store true true, Fulfilled v) /\
    v = {| confirmed := ["eva"]; rejected := []; waiting := ["eva"; "fabio"] |} /\
    ~ pairwise_disjoint v.
Proof.
  eexists. split; [reflexivity|]. split; [reflexivity|].
  intros (_ & Hcw & _). apply (Hcw "eva"); cbn; apply list_elem_of_here.
Qed.

Lemma getConfirms_partitions_by_attends_witness :
  exists v,
    ScheduledEvent.getConfirms memdb.handler FirstThenSecond memdb.event4 (memdb.store true true)
      = (memdb.store true true, Fulfilled v) /\
    (forall u, u ∈ confirmed v <->
       exists r, r ∈ memdb.rows4 /\ attends r = true /\ user r = u) /\
    (forall u, u ∈ rejected v <->
       exists r, r ∈ memdb.rows4 /\ attends r = false /\ user r = u) /\
    (Some memdb.rows4 = None \/ Some memdb.rows4 = Some [] ->
     confirmed v = [] /\ rejected v = []).
Proof.
  apply (getConfirms_partitions_by_attends memdb.handler FirstThenSecond memdb.event4
           (memdb.store true true) (memdb.store true true)
           (Some memdb.rows4) (Some ["duda"])).
  reflexivity.
Defined.

(** Event 6: "ana" answers twice with true, before "caio", and "bea" twice
    with false; the lists keep every answer, in the order of the rows. *)
Lemma getConfirms_keeps_row_order_witness :
  exists v,
    ScheduledEvent.getConfirms memdb.handler SecondThenFirst memdb.event6 memdb.crowded
      = (memdb.crowded, Fulfilled v) /\
    confirmed v = user <$> filter (fun r => attends r = true) memdb.rows6 /\
    rejected v = user <$> filter (fun r => attends r = false) memdb.rows6 /\
    (length (confirmed v) + length (rejected v) = length memdb.rows6)%nat /\
    (forall l1 r1 l2 r2 l3,
       memdb.rows6 = l1 ++ r1 :: l2 ++ r2 :: l3 ->
       attends r1 = attends r2 ->
       exists a b d,
         (if attends r1 then confirmed v else rejected v) =
           a ++ user r1 :: b ++ user r2 :: d /\
         length a = length (filter (fun r => attends r = attends r1) l1) /\
         length b = length (filter (fun r => attends r = attends r1) l2) /\
         length d = length (filter (fun r => attends r = attends r1) l3)).
Proof.
  apply (getConfirms_keeps_row_order memdb.handler SecondThenFirst memdb.event6
           memdb.crowded memdb.crowded (Some memdb.rows6) (Some ["duda"])).
  reflexivity.
Defined.

(** What the lists of event 6 are, and the rows "ana"/true (first) and
    "caio"/true (fourth) in them: "ana", then one more entry, then "caio". *)
Example getConfirms_event6_lists :
  exists v,
    (ScheduledEvent.getConfirms memdb.handler SecondThenFirst memdb.event6 memdb.crowded).2
      = Fulfilled v /\
    confirmed v = ["ana"; "ana"; "caio"] /\
    rejected v = ["bea"; "bea"] /\
    memdb.rows6 =
      [] ++ {| user := "ana"; attends := true |}
         :: [{| user := "bea"; attends := false |}; {| user := "ana"; attends := true |}]
         ++ {| user := "caio"; attends := true |}
         :: [{| user := "bea"; attends := false |}] /\
    confirmed v = [] ++ "ana" :: ["ana"] ++ "caio" :: [].
Proof. eexists. repeat split. Qed.

(** Event 5: "eva" has a row and is on the waiting list, and stays on it. *)
Lemma getConfirms_waiting_passes_through_witness :
  exists v,
    ScheduledEvent.getConfirms memdb.handler FirstThenSecond memdb.event5 (memdb.store true true)
      = (memdb.store true true, Fulfilled v) /\
    waiting v = ["eva"; "fabio"] /\
    (forall r, r ∈ memdb.rows5 -> user r ∈ ["eva"; "fabio"] -> user r ∈ waiting v).
Proof.
  apply (getConfirms_waiting_passes_through memdb.handler FirstThenSecond memdb.event5
           (memdb.store true true) (memdb.store true true) (Some memdb.rows5) ["eva"; "fabio"]).
  reflexivity.
Defined.

(** Event 9 has neither rows nor a waiting list. *)
Lemma getConfirms_defaults_to_empty_witness :
  exists v,
    ScheduledEvent.getConfirms memdb.handler FirstThenSecond memdb.event9 (memdb.store true true)
      = (memdb.store true true, Fulfilled v) /\
    waiting v = [] /\
    (@None (list Confirm) = None \/ @None (list Confirm) = Some [] ->
     v = {| confirmed := []; rejected := []; waiting := [] |}).
Proof.
  apply (getConfirms_defaults_to_empty memdb.handler FirstThenSecond memdb.event9
           (memdb.store true true) (memdb.store true true) None).
  reflexivity.
Defined.

(** Both tables offline and the waiting-list read completing first: the
    reason surfaced is that of the waiting-list read. *)
Lemma getConfirms_rejects_iff_a_read_fails_witness :
  exists res,
    ScheduledEvent.getConfirms memdb.handler SecondThenFirst memdb.event4 (memdb.store false false)
      = (memdb.store false false, res) /\
    (is_rejected res = true <->
       is_rejected (Rejected "confirms table offline" : settled string (option (list Confirm)))
         = true \/
       is_rejected (Rejected "events table offline" : settled string (option (list string)))
         = true) /\
    (forall e, res = Rejected e <->
       (Rejected "events table offline" : settled string (option (list string))) = Rejected e \/
       (is_fulfilled (Rejected "events table offline" : settled string (option (list string)))
          = true /\
        (Rejected "confirms table offline" : settled string (option (list Confirm)))
          = Rejected e)) /\
    (forall v, res = Fulfilled v <->
       exists c w,
         (Rejected "confirms table offline" : settled string (option (list Confirm)))
           = Fulfilled c /\
         (Rejected "events table offline" : settled string (option (list string)))
           = Fulfilled w /\
         v = ScheduledEvent.getConfirms_view (c, w)).
Proof.
  apply (getConfirms_rejects_iff_a_read_fails memdb.handler SecondThenFirst memdb.event4
           (memdb.store false false) (memdb.store false false)
           (Rejected "confirms table offline") (Rejected "events table offline")).
  reflexivity.
Defined.

(** Event 4: no user of its rows is on its waiting list or in two rows. *)
Lemma getConfirms_disjoint_iff_store_disjoint_witness :
  exists v,
    ScheduledEvent.getConfirms memdb.handler FirstThenSecond memdb.event4 (memdb.store true true)
      = (memdb.store true true, Fulfilled v) /\
    (pairwise_disjoint v <->
       (forall r1 r2, r1 ∈ memdb.rows4 -> r2 ∈ memdb.rows4 ->
                      user r1 = user r2 -> attends r1 = attends r2) /\
       (forall r, r ∈ memdb.rows4 -> user r ∉ ["duda"])).
Proof.
  apply (getConfirms_disjoint_iff_store_disjoint memdb.handler FirstThenSecond memdb.event4
           (memdb.store true true) (memdb.store true true) (Some memdb.rows4) (Some ["duda"])).
  reflexivity.
Defined.

(** [deleteEvent] on event 4 with the confirms table offline: the call is
    rejected, and the store it leaves has lost the event. *)
Lemma deleteEvent_no_rollback_witness :
  exists res,
    ScheduledEvent.deleteEvent memdb.handler FirstThenSecond memdb.event4 (memdb.store true false)
      = (memdb.without_event 4 (memdb.store true false), res) /\
    (is_fulfilled res = true <->
       is_fulfilled (Fulfilled tt : settled string unit) = true /\
       is_fulfilled (Rejected "confirms table offline" : settled string unit) = true) /\
    (is_rejected res = true <->
       is_rejected (Fulfilled tt : settled string unit) = true \/
       is_rejected (Rejected "confirms table offline" : settled string unit) = true) /\
    (forall a e, (Fulfilled tt : settled string unit) = Fulfilled a ->
                 (Rejected "confirms table offline" : settled string unit) = Rejected e ->
                 res = Rejected e) /\
    (forall a e, (Fulfilled tt : settled string unit) = Rejected e ->
                 (Rejected "confirms table offline" : settled string unit) = Fulfilled a ->
                 res = Rejected e).
Proof.
  apply (deleteEvent_no_rollback memdb.handler FirstThenSecond memdb.event4
           (memdb.store true false)
           (memdb.without_event 4 (memdb.store true false))
           (memdb.without_event 4 (memdb.store true false))
           (Fulfilled tt) (Rejected "confirms table offline")).
  split; reflexivity.
Defined.

(** The scenario in full: after the rejected [deleteEvent], event 4 is gone
    from the events table while its two confirms are still in the store. *)
Example deleteEvent_leaves_orphaned_confirms :
  let '(s', res) :=
    ScheduledEvent.deleteEvent memdb.handler FirstThenSecond memdb.event4
      (memdb.store true false) in
  res = Rejected "confirms table offline" /\
  memdb.events (memdb.store true false) = [3; 4; 5; 9]%Z /\
  memdb.events s' = [3; 5; 9]%Z /\
  memdb.rows_of 4 s' = Some memdb.rows4.
Proof. vm_compute. repeat split. Qed.

(** With both tables online the same call removes the event and its rows. *)
Example deleteEvent_removes_event_and_confirms :
  let '(s', res) :=
    ScheduledEvent.deleteEvent memdb.handler SecondThenFirst memdb.event4
      (memdb.store true true) in
  res = Fulfilled (tt, tt) /\
  memdb.events s' = [3; 5; 9]%Z /\
  memdb.rows_of 4 s' = None.
Proof. vm_compute. repeat split. Qed.



(** * Further properties of the class *)

(** ** Status of a scheduled event *)

Section StatusOverTime.
Variable cfg : config.

Lemma getStatus_instant_expired_aux (this : ScheduledEvent.t) (now1 now2 : Z) :
  ScheduledEvent.instant this = true ->
  ScheduledEvent.getStatus cfg this now1 now2 = Return "expired".
Proof.
  intros H. unfold ScheduledEvent.getStatus, ScheduledEvent.getStatus_body. by rewrite H.
Qed.

Lemma getStatus_no_time_aux (this : ScheduledEvent.t) (now1 now2 : Z) :
  ScheduledEvent.instant this = false ->
  ScheduledEvent.time this = None ->
  exists e, ScheduledEvent.getStatus cfg this now1 now2 = Throw e.
Proof.
  intros Hi Ht. unfold ScheduledEvent.getStatus, ScheduledEvent.getStatus_body.
  rewrite Hi, Ht. eexists. reflexivity.
Qed.

(** The time the constructor gives an event that is not instant, for a zone
    name that is not empty. *)
Lemma constructor_scheduled_time (id : Z) (name : string) (T limit : Z)
    (instant : option bool) :
  default false instant = false ->
  default_timezone cfg <> "" ->
  ScheduledEvent.time (ScheduledEvent.constructor cfg id name T limit instant) =
    Some {| moment.isValid := moment.in_range (T * 1000);
            moment.valueOf := T * 1000;
            moment.tzName := Some (default_timezone cfg) |}.
Proof.
  intros Hi Hz. unfold ScheduledEvent.constructor. cbn. rewrite Hi. cbn.
  destruct (default_timezone cfg); [congruence | reflexivity].
Qed.

(** The status of such an event in terms of the constructor's arguments. *)
Lemma getStatus_constructed (id : Z) (name : string) (T limit : Z)
    (instant : option bool) (now1 now2 : Z) :
  default false instant = false ->
  default_timezone cfg <> "" ->
  ScheduledEvent.getStatus cfg (ScheduledEvent.constructor cfg id name T limit instant)
    now1 now2 =
    if moment.in_range (T * 1000) && (now1 <? T * 1000)%Z then Return "pending"
    else if moment.in_range (T * 1000) && moment.in_range (now2 - happening_margin cfg)
            && (now2 - happening_margin cfg <? T * 1000)%Z
         then Return "happening"
         else Return "expired".
Proof.
  intros Hinst Hzone.
  apply (getStatus_scheduled cfg (ScheduledEvent.constructor cfg id name T limit instant)
           {| moment.isValid := moment.in_range (T * 1000);
              moment.valueOf := T * 1000;
              moment.tzName := Some (default_timezone cfg) |}).
  - unfold ScheduledEvent.constructor. cbn. exact Hinst.
  - apply constructor_scheduled_time; assumption.
Qed.


(** X2. [getStatus] of an event made by the constructor does not throw when
    the event is instant or the configured zone name is not empty: it returns
    "pending", "happening" or "expired", whatever the other arguments, the
    margin and the clock. *)
Theorem getStatus_total_on_constructed (id : Z) (name : string) (T limit : Z)
    (instant : option bool) (now1 now2 : Z) :
  default false instant = true \/ default_timezone cfg <> "" ->
  exists status,
    ScheduledEvent.getStatus cfg (ScheduledEvent.constructor cfg id name T limit instant)
      now1 now2 = Return status /\
    (status = "pending" \/ status = "happening" \/ status = "expired").
Proof.
  intros H. destruct (default false instant) eqn:Hinst.
  - exists "expired". split; [|auto].
    apply getStatus_instant_expired_aux. exact Hinst.
  - destruct H as [H|Hzone]; [discriminate|].
    rewrite getStatus_constructed by assumption.
    destruct (_ && _); [eauto|]. destruct (_ && _); eauto 6.
Qed.

(** X16. [getStatus] of an event made by the constructor throws exactly when
    the event is not instant and the configured zone name is empty. *)
Theorem getStatus_constructed_throws_iff_no_zone_name (id : Z) (name : string)
    (T limit : Z) (instant : option bool) (now1 now2 : Z) :
  (exists e,
     ScheduledEvent.getStatus cfg (ScheduledEvent.constructor cfg id name T limit instant)
       now1 now2 = Throw e) <->
  default false instant = false /\ default_timezone cfg = "".
Proof.
  destruct (default false instant) eqn:Hinst.
  - rewrite getStatus_instant_expired_aux by exact Hinst.
    split; [intros [e He]; discriminate | intros [? _]; discriminate].
  - destruct (decide (default_timezone cfg = "")) as [Hz|Hz].
    + split; [auto|]. intros _. apply getStatus_no_time_aux.
      * exact Hinst.
      * unfold ScheduledEvent.constructor. cbn. rewrite Hinst, Hz. reflexivity.
    + rewrite getStatus_constructed by assumption.
      split; [|intros [_ ?]; contradiction].
      intros [e He]. destruct (_ && _); [discriminate|]. destruct (_ && _); discriminate.
Qed.

(** X3. [getStatus] throws exactly on an object that is not instant and has
    no time: reading [diff] of [null]. *)
Theorem getStatus_throws_iff_time_missing (this : ScheduledEvent.t) (now1 now2 : Z) :
  (exists e, ScheduledEvent.getStatus cfg this now1 now2 = Throw e) <->
  ScheduledEvent.instant this = false /\ ScheduledEvent.time this = None.
Proof.
  destruct (ScheduledEvent.instant this) eqn:Hi.
  { rewrite getStatus_instant_expired_aux by exact Hi.
    split; [intros [e He]; discriminate | intros [? _]; discriminate]. }
  destruct (ScheduledEvent.time this) as [tm|] eqn:Ht.
  - rewrite (getStatus_scheduled cfg this tm) by assumption.
    split; [|intros [_ ?]; discriminate].
    intros [e He]. destruct (_ && _); [discriminate|]. destruct (_ && _); discriminate.
  - split; [auto|]. intros _. apply getStatus_no_time_aux; assumption.
Qed.


(** X15. Once "happening" an event is never "pending" again as the clock
    advances. *)
Theorem getStatus_happening_never_pending_again (this : ScheduledEvent.t)
    (a1 a2 b1 b2 : Z) :
  (a1 <= b1)%Z ->
  ScheduledEvent.getStatus cfg this a1 a2 = Return "happening" ->
  ScheduledEvent.getStatus cfg this b1 b2 <> Return "pending".
Proof.
  intros H1.
  destruct (ScheduledEvent.instant this) eqn:Hinst.
  { rewrite !getStatus_instant_expired_aux by assumption. discriminate. }
  destruct (ScheduledEvent.time this) as [tm|] eqn:Htime.
  2: { destruct (getStatus_no_time_aux this a1 a2 Hinst Htime) as [e ->]. discriminate. }
  rewrite !(getStatus_scheduled cfg this tm) by assumption.
  destruct (moment.isValid tm); cbn [andb]; [|discriminate].
  destruct (Z.ltb_spec a1 (moment.valueOf tm)); [discriminate|].
  destruct (Z.ltb_spec b1 (moment.valueOf tm)); [lia|].
  intros _. destruct (_ && _); discriminate.
Qed.

(** X5. With a margin that is zero or negative no event is ever "happening"
    (the clock does not run backwards between the two readings). *)
Theorem getStatus_no_happening_without_margin (this : ScheduledEvent.t) (now1 now2 : Z) :
  (happening_margin cfg <= 0)%Z -> (now1 <= now2)%Z ->
  ScheduledEvent.getStatus cfg this now1 now2 <> Return "happening".
Proof.
  intros Hm Hclock.
  destruct (ScheduledEvent.instant this) eqn:Hinst.
  { rewrite getStatus_instant_expired_aux by assumption. discriminate. }
  destruct (ScheduledEvent.time this) as [tm|] eqn:Htime.
  2: { destruct (getStatus_no_time_aux this now1 now2 Hinst Htime) as [e ->]. discriminate. }
  rewrite (getStatus_scheduled cfg this tm) by assumption.
  destruct (moment.isValid tm); cbn [andb]; [|discriminate].
  destruct (Z.ltb_spec now1 (moment.valueOf tm)); [discriminate|].
  destruct (Z.ltb_spec (now2 - happening_margin cfg) (moment.valueOf tm)); [lia|].
  rewrite andb_false_r. discriminate.
Qed.

End StatusOverTime.



Lemma getStatus_total_on_constructed_witness :
  exists status,
    ScheduledEvent.getStatus memdb.cfg
      (ScheduledEvent.constructor memdb.cfg 4 "inhouse" 1500000000 10 None)
      1500000300000 1500000300001 = Return status /\
    (status = "pending" \/ status = "happening" \/ status = "expired").
Proof.
  apply (getStatus_total_on_constructed memdb.cfg 4 "inhouse" 1500000000 10 None
           1500000300000 1500000300001).
  right. discriminate.
Defined.


(** Event 4 is happening five minutes in, and not pending a minute later. *)
Lemma getStatus_happening_never_pending_again_witness :
  ScheduledEvent.getStatus memdb.cfg memdb.event4 1500000360000 1500000360000
    <> Return "pending".
Proof.
  apply (getStatus_happening_never_pending_again memdb.cfg memdb.event4
           1500000300000 1500000300000 1500000360000 1500000360000).
  - lia.
  - reflexivity.
Defined.

Lemma getStatus_no_happening_without_margin_witness :
  ScheduledEvent.getStatus {| default_timezone := "UTC"; happening_margin := 0 |}
    memdb.event4 1500000000000 1500000000000 <> Return "happening".
Proof.
  apply (getStatus_no_happening_without_margin
           {| default_timezone := "UTC"; happening_margin := 0 |}
           memdb.event4 1500000000000 1500000000000); cbn; lia.
Defined.


(** ** More on the confirmation view *)

Section ViewOfRows.

(** X7. The view of two batches of rows put end to end is the two views put
    end to end, list by list: the loop keeps no memory from one row to the
    next. *)
Theorem getConfirms_view_app (rows1 rows2 : list Confirm) (w : option (list string)) :
  let v := ScheduledEvent.getConfirms_view (Some (rows1 ++ rows2), w) in
  let v1 := ScheduledEvent.getConfirms_view (Some rows1, w) in
  let v2 := ScheduledEvent.getConfirms_view (Some rows2, w) in
  confirmed v = confirmed v1 ++ confirmed v2 /\
  rejected v = rejected v1 ++ rejected v2 /\
  waiting v = waiting v1.
Proof.
  cbn zeta. rewrite !getConfirms_view_eq. cbn.
  rewrite !filter_app, !fmap_app. auto.
Qed.

(** The users of the rows with [attends] true followed by those with
    [attends] false are the users of all rows, rearranged. *)
Lemma users_by_attends_permutation (rows : list Confirm) :
  (user <$> filter (fun r => attends r = true) rows) ++
  (user <$> filter (fun r => attends r = false) rows) ≡ₚ user <$> rows.
Proof.
  induction rows as [|r rows IH]; [reflexivity|].
  rewrite !filter_cons. destruct (attends r).
  - rewrite decide_True by reflexivity. rewrite decide_False by discriminate.
    cbn. by rewrite IH.
  - rewrite decide_False by discriminate. rewrite decide_True by reflexivity.
    cbn. rewrite <- Permutation_middle. by rewrite IH.
Qed.

(** X8. No row is lost and none is invented: [confirmed] followed by
    [rejected] is a rearrangement of the users of the rows, with as many
    repetitions of a user as there are rows of that user. *)
Theorem getConfirms_view_permutation (c : option (list Confirm)) (w : option (list string)) :
  let v := ScheduledEvent.getConfirms_view (c, w) in
  confirmed v ++ rejected v ≡ₚ user <$> default [] c.
Proof.
  cbn zeta. rewrite getConfirms_view_eq. cbn [confirmed rejected].
  apply users_by_attends_permutation.
Qed.

(** X9. If the store delivers at most one row per user, no user appears twice
    in [confirmed] or in [rejected], and none is in both. *)
Theorem getConfirms_view_NoDup (c : option (list Confirm)) (w : option (list string)) :
  NoDup (user <$> default [] c) ->
  let v := ScheduledEvent.getConfirms_view (c, w) in
  NoDup (confirmed v) /\ NoDup (rejected v) /\ confirmed v ## rejected v.
Proof.
  intros Hnd. cbn zeta. rewrite getConfirms_view_eq. cbn [confirmed rejected].
  rewrite <- users_by_attends_permutation in Hnd.
  apply NoDup_app in Hnd as (Hc & Hcr & Hr).
  split; [exact Hc|]. split; [exact Hr|].
  intros u Hu Hu'. exact (Hcr u Hu Hu').
Qed.

End ViewOfRows.

Lemma getConfirms_view_NoDup_witness :
  let v := ScheduledEvent.getConfirms_view (Some memdb.rows4, Some ["duda"]) in
  NoDup (confirmed v) /\ NoDup (rejected v) /\ confirmed v ## rejected v.
Proof.
  apply (getConfirms_view_NoDup (Some memdb.rows4) (Some ["duda"])).
  apply (bool_decide_unpack _). vm_compute. reflexivity.
Defined.

(** ** The methods and the store *)

Section StoreCalls.
Context {Err DB Ack ELobbyStatus Inhouse : Type}.
Variable db : ScheduledEvent.dbhandler Err DB Ack ELobbyStatus Inhouse.

(** X10. If the two reads leave the store as it is, so does [getConfirms],
    and whether it is fulfilled, and with which view, does not depend on
    which read completes first. *)
Theorem getConfirms_read_only (this : ScheduledEvent.t) (s : DB) :
  (ScheduledEvent.confirms_getByEvent db this s).1 = s ->
  (ScheduledEvent.events_getWaiting db this s).1 = s ->
  (forall o, (ScheduledEvent.getConfirms db o this s).1 = s) /\
  (forall v,
     (ScheduledEvent.getConfirms db FirstThenSecond this s).2 = Fulfilled v <->
     (ScheduledEvent.getConfirms db SecondThenFirst this s).2 = Fulfilled v) /\
  is_rejected (ScheduledEvent.getConfirms db FirstThenSecond this s).2 =
  is_rejected (ScheduledEvent.getConfirms db SecondThenFirst this s).2.
Proof.
  unfold ScheduledEvent.getConfirms, ScheduledEvent.getConfirms_body, in_flight.
  destruct (ScheduledEvent.confirms_getByEvent db this s) as [sc rc] eqn:Hc.
  destruct (ScheduledEvent.events_getWaiting db this s) as [sw rw] eqn:Hw.
  cbn [fst]. intros -> ->. rewrite Hc, Hw.
  unfold new_Promise, then_catch.
  split; [intros []; reflexivity|].
  destruct rc, rw; cbn; split; try reflexivity; intros v; split; intros; congruence.
Qed.

(** X11. [getMsgId] and [setLobbyStatus] add nothing to the store call they
    wrap: the store changes as the call changes it, a value is passed on as
    it is and so is a rejection reason. *)
Theorem getMsgId_setLobbyStatus_pass_through (this : ScheduledEvent.t)
    (status : ELobbyStatus) (s : DB) :
  ScheduledEvent.getMsgId db this s =
    ScheduledEvent.events_getSummaryMsgId db (ScheduledEvent.id this) s /\
  ScheduledEvent.setLobbyStatus db this status s =
    ScheduledEvent.events_updateLobbyStatus db this status s.
Proof.
  unfold ScheduledEvent.getMsgId, ScheduledEvent.getMsgId_body,
    ScheduledEvent.setLobbyStatus, ScheduledEvent.setLobbyStatus_body.
  destruct (ScheduledEvent.events_getSummaryMsgId db (ScheduledEvent.id this) s) as [s1 [m|e]];
    destruct (ScheduledEvent.events_updateLobbyStatus db this status s) as [s2 [a|e']];
    split; reflexivity.
Qed.

(** X12. [updateMsgId] drops what the store resolves with: it is fulfilled
    with no value when the store call is fulfilled, and rejected with the
    store's reason otherwise; the store is the one the call leaves. *)
Theorem updateMsgId_drops_value (this : ScheduledEvent.t) (msgId : string) (s s' : DB)
    (r : settled Err Ack) :
  ScheduledEvent.events_updateSummaryMsgId db (ScheduledEvent.id this) msgId s = (s', r) ->
  exists res, ScheduledEvent.updateMsgId db this msgId s = (s', res) /\
    (res = Fulfilled tt <-> is_fulfilled r = true) /\
    (forall e, res = Rejected e <-> r = Rejected e).
Proof.
  intros H. unfold ScheduledEvent.updateMsgId, ScheduledEvent.updateMsgId_body. rewrite H.
  eexists. split; [reflexivity|].
  unfold new_Promise, then_catch. destruct r as [a|e0]; cbn.
  - split; [tauto|]. intros e; split; discriminate.
  - split; [split; discriminate|]. intros e; split; congruence.
Qed.

(** X13. Writing a summary message id and reading it back: if the store
    accepts the write and then returns the id written for that event id,
    [updateMsgId] followed by [getMsgId], on this event or on any other
    object with the same [id], yields that message id. *)
Theorem updateMsgId_then_getMsgId (this this' : ScheduledEvent.t) (msgId : string)
    (s s1 : DB) (a : Ack) :
  ScheduledEvent.id this' = ScheduledEvent.id this ->
  ScheduledEvent.events_updateSummaryMsgId db (ScheduledEvent.id this) msgId s
    = (s1, Fulfilled a) ->
  ScheduledEvent.events_getSummaryMsgId db (ScheduledEvent.id this) s1
    = (s1, Fulfilled msgId) ->
  let '(s', written) := ScheduledEvent.updateMsgId db this msgId s in
  written = Fulfilled tt /\
  ScheduledEvent.getMsgId db this' s' = (s', Fulfilled msgId).
Proof.
  intros Hid Hw Hr.
  unfold ScheduledEvent.updateMsgId, ScheduledEvent.updateMsgId_body,
    ScheduledEvent.getMsgId, ScheduledEvent.getMsgId_body.
  rewrite Hw. cbn. rewrite Hid, Hr. split; reflexivity.
Qed.

(** X14. When both deletions succeed, [deleteEvent] is fulfilled with the
    pair of what they resolved with, the event deletion first whichever
    completed first; when both fail, the reason is that of the deletion that
    completed first. *)
Theorem deleteEvent_settles (o : completion_order) (this : ScheduledEvent.t)
    (s s1 s2 : DB) (re rc : settled Err Ack) :
  match o with
  | FirstThenSecond =>
      ScheduledEvent.events_deleteEvent db (ScheduledEvent.id this) s = (s1, re) /\
      ScheduledEvent.confirms_deleteByEvent db (ScheduledEvent.id this) s1 = (s2, rc)
  | SecondThenFirst =>
      ScheduledEvent.confirms_deleteByEvent db (ScheduledEvent.id this) s = (s1, rc) /\
      ScheduledEvent.events_deleteEvent db (ScheduledEvent.id this) s1 = (s2, re)
  end ->
  (forall a b, (ScheduledEvent.deleteEvent db o this s).2 = Fulfilled (a, b) <->
               re = Fulfilled a /\ rc = Fulfilled b) /\
  (forall e1 e2, re = Rejected e1 -> rc = Rejected e2 ->
     (ScheduledEvent.deleteEvent db o this s).2 =
       Rejected (match o with FirstThenSecond => e1 | SecondThenFirst => e2 end)).
Proof.
  intros H. unfold ScheduledEvent.deleteEvent, ScheduledEvent.deleteEvent_body, in_flight.
  destruct o; destruct H as [-> ->]; unfold new_Promise, then_catch;
    destruct re as [a0|e], rc as [b0|e']; cbn;
    (split; [intros a b; split; [intros [= <- <-]; auto | intros [[= <-] [= <-]]; auto]
            | intros e1 e2 H1 H2; try discriminate; congruence]);
    try discriminate.
Qed.

End StoreCalls.

(** ** The methods on the in-memory stores *)

Lemma getConfirms_read_only_witness :
  (forall o,
     (ScheduledEvent.getConfirms memdb.handler o memdb.event4 (memdb.store true true)).1
       = memdb.store true true) /\
  (forall v,
     (ScheduledEvent.getConfirms memdb.handler FirstThenSecond memdb.event4
        (memdb.store true true)).2 = Fulfilled v <->
     (ScheduledEvent.getConfirms memdb.handler SecondThenFirst memdb.event4
        (memdb.store true true)).2 = Fulfilled v) /\
  is_rejected (ScheduledEvent.getConfirms memdb.handler FirstThenSecond memdb.event4
                 (memdb.store true true)).2 =
  is_rejected (ScheduledEvent.getConfirms memdb.handler SecondThenFirst memdb.event4
                 (memdb.store true true)).2.
Proof.
  apply (getConfirms_read_only memdb.handler memdb.event4 (memdb.store true true));
    reflexivity.
Defined.

Lemma updateMsgId_drops_value_witness :
  exists res,
    ScheduledEvent.updateMsgId msgdb.handler memdb.event4 "m1" [] = ([(4%Z, "m1")], res) /\
    (res = Fulfilled tt <-> is_fulfilled (Fulfilled 1%nat : settled string nat) = true) /\
    (forall e, res = Rejected e <-> (Fulfilled 1%nat : settled string nat) = Rejected e).
Proof.
  apply (updateMsgId_drops_value msgdb.handler memdb.event4 "m1" [] [(4%Z, "m1")]
           (Fulfilled 1%nat)).
  reflexivity.
Defined.

(** The id written through one object for event 4 is read back through
    another object for event 4, in front of an older id. *)
Lemma updateMsgId_then_getMsgId_witness :
  let '(s', written) :=
    ScheduledEvent.updateMsgId msgdb.handler memdb.event4 "new" [(4%Z, "old")] in
  written = Fulfilled tt /\
  ScheduledEvent.getMsgId msgdb.handler
    (ScheduledEvent.constructor memdb.cfg 4 "renamed" 0 0 (Some true)) s'
    = (s', Fulfilled "new").
Proof.
  apply (updateMsgId_then_getMsgId msgdb.handler memdb.event4
           (ScheduledEvent.constructor memdb.cfg 4 "renamed" 0 0 (Some true))
           "new" [(4%Z, "old")] [(4%Z, "new"); (4%Z, "old")] 1%nat);
    reflexivity.
Defined.

(** Both tables offline, the confirms deletion completing first. *)
Lemma deleteEvent_settles_witness :
  (forall a b,
     (ScheduledEvent.deleteEvent memdb.handler SecondThenFirst memdb.event4
        (memdb.store false false)).2 = Fulfilled (a, b) <->
     (Rejected "events table offline" : settled string unit) = Fulfilled a /\
     (Rejected "confirms table offline" : settled string unit) = Fulfilled b) /\
  (forall e1 e2,
     (Rejected "events table offline" : settled string unit) = Rejected e1 ->
     (Rejected "confirms table offline" : settled string unit) = Rejected e2 ->
     (ScheduledEvent.deleteEvent memdb.handler SecondThenFirst memdb.event4
        (memdb.store false false)).2 = Rejected e2).
Proof.
  apply (deleteEvent_settles memdb.handler SecondThenFirst memdb.event4
           (memdb.store false false) (memdb.store false false) (memdb.store false false)
           (Rejected "events table offline") (Rejected "confirms table offline")).
  split; reflexivity.
Defined.
